(** * The GitHub user search form ([App] of src/src/User.tsx)

    A shallow embedding of the React component [App]: its three state
    slots, the two event handlers [handleChange] and [handleSubmit], the
    element tree it returns, and the event loop that runs the handlers
    against the network. *)

From Stdlib Require Import String List Bool Arith Lia ZArith.
From Stdlib Require Import Floats.SpecFloat.
From ExtLib Require Import Structures.Monad Structures.MonadExc.
Import ListNotations.
Import MonadNotation.
Local Open Scope string_scope.
Local Open Scope monad_scope.
Set Warnings "-register-all".

(** ** JavaScript values *)

(** The values [response.json()] can produce, plus [undefined], which a
    property read yields for a missing field.  Numbers are IEEE doubles;
    an object is its list of own properties in insertion order. *)
Inductive jsval : Type :=
| JUndefined
| JNull
| JBool (b : bool)
| JNum (f : spec_float)
| JStr (s : string)
| JArr (items : list jsval)
| JObj (fields : list (string * jsval)).

(** JavaScript truthiness, as used by [user && (...)]. *)
Definition truthy (v : jsval) : bool :=
  match v with
  | JUndefined | JNull => false
  | JBool b => b
  | JNum (S754_zero _) | JNum S754_nan => false
  | JNum _ => true
  | JStr s => negb (s =? "")
  | JArr _ | JObj _ => true
  end.

Fixpoint lookup_field (key : string) (fields : list (string * jsval)) : jsval :=
  match fields with
  | [] => JUndefined
  | (k, v) :: rest => if k =? key then v else lookup_field key rest
  end.

(** The property read [v.key] for the keys [App] reads ([name], [bio],
    [avatar_url]): none of them is defined on a prototype, so only an
    object's own field can answer. *)
Definition get (v : jsval) (key : string) : jsval :=
  match v with
  | JObj fields => lookup_field key fields
  | _ => JUndefined
  end.

(** A thrown JavaScript value: the [TypeError] of a failed [fetch], the
    [SyntaxError] of a body that is not JSON. *)
Inductive exn : Type :=
| JSError (name message : string).

(** How a promise settles. *)
Inductive settled (T : Type) : Type :=
| Fulfilled (x : T)
| Rejected (e : exn).
Arguments Fulfilled {T} x.
Arguments Rejected {T} e.

(** ** The network *)

(** The options object a caller may hand to [fetch] as second argument. *)
Record request_init : Type := mkRequestInit {
  method : option string;
  headers : list (string * string);
  body : option string
}.

(** One call of [fetch], as the component makes it: the address string it
    hands over and the options, if any.  The URL the browser then requests
    is that string run through its URL parser (which escapes some
    characters, splits off a query at [?] and a fragment at [#], and
    resolves dot segments), with the browser's own headers; none of that
    is the component's doing and none of it is modelled. *)
Record request : Type := mkRequest {
  input : string;
  init : option request_init
}.

(** What [App] can see of a [Response]: the status line and the raw body.
    [handleSubmit] reads neither; it only calls [json()]. *)
Record response : Type := mkResponse {
  status : nat;
  statusText : string;
  rawBody : string
}.

Definition ok (r : response) : bool :=
  ((200 <=? status r) && (status r <=? 299))%nat.

(** ** Component state: the three [useState] slots *)

Record component : Type := mkComponent {
  userName : string;
  user : jsval;
  loading : bool
}.

(** [useState<string>("")], [useState<GithubUser | null>(null)],
    [useState<boolean>(false)]. *)
Definition initial : component :=
  {| userName := ""; user := JNull; loading := false |}.

(** ** Handler programs *)

(** The effects a handler performs.  [Fetch] and [Json] are the two awaited
    calls [await fetch(url)] and [await response.json()]: each suspends the
    handler until the promise settles. *)
Inductive action : Type :=
| PreventDefault
| SetUserName (s : string)
| SetUser (d : jsval)
| SetLoading (b : bool)
| ConsoleError (e : exn)
| Fetch (u : string)
| Json (r : response).

Definition result (a : action) : Type :=
  match a with
  | Fetch _ => settled response
  | Json _ => settled jsval
  | _ => unit
  end.

Inductive prog (T : Type) : Type :=
| Ret (x : T)
| Throw (e : exn)
| Act (a : action) (k : result a -> prog T).
Arguments Ret {T} x.
Arguments Throw {T} e.
Arguments Act {T} a k.

Fixpoint prog_bind {A B : Type} (p : prog A) (f : A -> prog B) : prog B :=
  match p with
  | Ret x => f x
  | Throw e => Throw e
  | Act a k => Act a (fun x => prog_bind (k x) f)
  end.

(** [try { p } catch (error) { h error }]. *)
Fixpoint try_catch {T : Type} (p : prog T) (h : exn -> prog T) : prog T :=
  match p with
  | Ret x => Ret x
  | Throw e => h e
  | Act a k => Act a (fun x => try_catch (k x) h)
  end.

#[export] Instance Monad_prog : Monad prog :=
  {| ret := @Ret; bind := @prog_bind |}.

#[export] Instance MonadExc_prog : MonadExc exn prog :=
  {| raise := @Throw; catch := @try_catch |}.

Definition perform (a : action) : prog (result a) := Act a Ret.

(** [await p]: the value of a fulfilled promise; a rejection is thrown. *)
Definition await {T : Type} (p : prog (settled T)) : prog T :=
  o <- p ;;
  match o with
  | Fulfilled x => ret x
  | Rejected e => raise e
  end.

Definition preventDefault : prog unit := perform PreventDefault.
Definition setUserName (s : string) : prog unit := perform (SetUserName s).
Definition setUser (d : jsval) : prog unit := perform (SetUser d).
Definition setLoading (b : bool) : prog unit := perform (SetLoading b).
Definition console_error (e : exn) : prog unit := perform (ConsoleError e).
Definition fetch (u : string) : prog (settled response) := perform (Fetch u).
Definition json (r : response) : prog (settled jsval) := perform (Json r).

(** [handleChange]: [setUserName(event.target.value)]. *)
Definition handleChange (value : string) : prog unit :=
  setUserName value.

(** [handleSubmit], closed over the [userName] of the render that created
    it. *)
Definition handleSubmit (userName : string) : prog unit :=
  preventDefault ;;
  catch
    (setLoading true ;;
     response <- await (fetch ("https://api.github.com/users/" ++ userName)) ;;
     data <- await (json response) ;;
     setUser data ;;
     setLoading false)
    (fun error =>
     setLoading false ;;
     console_error error).

(** ** The element tree [App] returns *)

Inductive handler : Type :=
| HandleChange
| HandleSubmit.

(** A JSX attribute: a string literal, an expression in braces, or an
    event handler. *)
Inductive prop : Type :=
| PLit (s : string)
| PExpr (v : jsval)
| POn (h : handler).

(** A JSX node: an element, literal text, or the value of an expression in
    braces. *)
Inductive node : Type :=
| Elem (tag : string) (props : list (string * prop)) (children : list node)
| Text (s : string)
| Val (v : jsval).

(** [v && n]: [v] itself when it is falsy, otherwise [n]. *)
Definition and_then (v : jsval) (n : node) : node :=
  if truthy v then n else Val v.

Definition App (st : component) : node :=
  if loading st then
    Elem "h1" [] [Text "Loading..."]
  else
    Elem "div" []
      [ Elem "form" [("onSubmit", POn HandleSubmit)]
          [ Elem "input"
              [ ("type", PLit "text");
                ("placeholder", PLit "Enter username");
                ("value", PExpr (JStr (userName st)));
                ("onChange", POn HandleChange) ] [];
            Elem "button" [] [Text "Search"] ];
        and_then (user st)
          (Elem "div" []
             [ Elem "h1" [] [Val (get (user st) "name")];
               Elem "p" [] [Val (get (user st) "bio")];
               Elem "img"
                 [ ("src", PExpr (get (user st) "avatar_url"));
                   ("alt", PLit "") ] [] ]) ].

(** *** Observations on a tree *)

Fixpoint find_prop (key : string) (ps : list (string * prop)) : option prop :=
  match ps with
  | [] => None
  | (k, p) :: rest => if k =? key then Some p else find_prop key rest
  end.

(** All elements of the tree with the given tag, in document order, each as
    its attribute list. *)
Fixpoint elements (tag : string) (n : node) : list (list (string * prop)) :=
  match n with
  | Elem t ps cs =>
      ((if t =? tag then [ps] else [])
       ++ (fix go (l : list node) : list (list (string * prop)) :=
             match l with
             | [] => []
             | c :: rest => elements tag c ++ go rest
             end) cs)%list
  | Text _ | Val _ => []
  end.

(** The literal text nodes of the tree, in document order. *)
Fixpoint texts (n : node) : list string :=
  match n with
  | Elem _ _ cs =>
      (fix go (l : list node) : list string :=
         match l with
         | [] => []
         | c :: rest => (texts c ++ go rest)%list
         end) cs
  | Text s => [s]
  | Val _ => []
  end.

(** The values placed in the tree by expressions in braces, as children or
    as attributes, in document order. *)
Fixpoint prop_values (ps : list (string * prop)) : list jsval :=
  match ps with
  | [] => []
  | (_, PExpr v) :: rest => v :: prop_values rest
  | _ :: rest => prop_values rest
  end.

Fixpoint values (n : node) : list jsval :=
  match n with
  | Elem _ ps cs =>
      (prop_values ps
       ++ (fix go (l : list node) : list jsval :=
             match l with
             | [] => []
             | c :: rest => values c ++ go rest
             end) cs)%list
  | Text _ => []
  | Val v => [v]
  end.

(** Does some element with this tag carry this handler under this
    attribute?  The browser can only deliver an event to a handler that is
    in the rendered tree. *)
Definition listens (tag attr : string) (h : handler) (n : node) : bool :=
  existsb
    (fun ps =>
       match find_prop attr ps with
       | Some (POn h') =>
           match h, h' with
           | HandleChange, HandleChange | HandleSubmit, HandleSubmit => true
           | _, _ => false
           end
       | _ => false
       end)
    (elements tag n).

(** ** The event loop *)

(** A handler suspended at an [await]: the awaited call and the rest of the
    handler. *)
Record task : Type := mkTask {
  waiting : action;
  resume : result waiting -> prog unit
}.

(** The component together with everything its handlers touch. *)
Record world : Type := mkWorld {
  comp : component;
  console : list exn;            (* the component's own [console.error]
                                    calls, in order; what React itself
                                    prints there is not recorded *)
  network : list request;        (* the calls of [fetch] made so far *)
  tasks : list task;             (* handlers suspended at an [await] *)
  defaultPrevented : bool;       (* flag of the event being dispatched *)
  unhandled : list exn           (* rejections no handler caught *)
}.

Definition mount : world :=
  {| comp := initial; console := []; network := []; tasks := [];
     defaultPrevented := false; unhandled := [] |}.

Definition with_comp (f : component -> component) (w : world) : world :=
  {| comp := f (comp w); console := console w; network := network w;
     tasks := tasks w; defaultPrevented := defaultPrevented w;
     unhandled := unhandled w |}.

Definition with_tasks (f : list task -> list task) (w : world) : world :=
  {| comp := comp w; console := console w; network := network w;
     tasks := f (tasks w); defaultPrevented := defaultPrevented w;
     unhandled := unhandled w |}.

Definition dispatching (w : world) : world :=
  {| comp := comp w; console := console w; network := network w;
     tasks := tasks w; defaultPrevented := false; unhandled := unhandled w |}.

(** [fetch(u)], with no second argument.  Without options the Fetch
    standard makes the request a GET to which the caller has added no
    header and no body. *)
Definition get_request (u : string) : request :=
  {| input := u; init := None |}.

(** One effect of a handler.  [ConsoleError] is the handler's own call of
    [console.error]; the warnings and errors React prints on its own
    account are no effect of a handler and appear nowhere in the world.
    A state setter, [preventDefault] and [console.error]
    return at once; an awaited call returns nothing yet ([None]) and the
    handler is parked. *)
Definition exec (a : action) (w : world) : world * option (result a) :=
  match a return world * option (result a) with
  | PreventDefault =>
      ({| comp := comp w; console := console w; network := network w;
          tasks := tasks w; defaultPrevented := true;
          unhandled := unhandled w |}, Some tt)
  | SetUserName s =>
      (with_comp (fun c => {| userName := s; user := user c;
                              loading := loading c |}) w, Some tt)
  | SetUser d =>
      (with_comp (fun c => {| userName := userName c; user := d;
                              loading := loading c |}) w, Some tt)
  | SetLoading b =>
      (with_comp (fun c => {| userName := userName c; user := user c;
                              loading := b |}) w, Some tt)
  | ConsoleError e =>
      ({| comp := comp w; console := (console w ++ [e])%list;
          network := network w; tasks := tasks w;
          defaultPrevented := defaultPrevented w;
          unhandled := unhandled w |}, Some tt)
  | Fetch u =>
      ({| comp := comp w; console := console w;
          network := (network w ++ [get_request u])%list; tasks := tasks w;
          defaultPrevented := defaultPrevented w;
          unhandled := unhandled w |}, None)
  | Json _ => (w, None)
  end.

(** Run a handler until it finishes or reaches an [await]. *)
Fixpoint run (p : prog unit) (w : world) : world :=
  match p with
  | Ret _ => w
  | Throw e =>
      {| comp := comp w; console := console w; network := network w;
         tasks := tasks w; defaultPrevented := defaultPrevented w;
         unhandled := (unhandled w ++ [e])%list |}
  | Act a k =>
      match exec a w with
      | (w', Some x) => run (k x) w'
      | (w', None) =>
          with_tasks (fun ts => (ts ++ [mkTask a k])%list) w'
      end
  end.

(** What the environment can do to the component. *)
Inductive outcome : Type :=
| FetchSettled (o : settled response)
| JsonSettled (o : settled jsval).

Inductive label : Type :=
| Change (value : string)          (* the user edits the input *)
| Submit                           (* the user submits the form *)
| Settle (i : nat) (o : outcome).  (* the promise of task [i] settles *)

Definition deliver (a : action) (o : outcome) : option (result a) :=
  match a as a', o return option (result a') with
  | Fetch _, FetchSettled x => Some x
  | Json _, JsonSettled x => Some x
  | _, _ => None
  end.

Fixpoint remove_nth {A : Type} (i : nat) (l : list A) : list A :=
  match l, i with
  | [], _ => []
  | _ :: rest, 0 => rest
  | x :: rest, S j => x :: remove_nth j rest
  end.

(** One turn of the event loop, as far as the component's own code goes:
    which handler runs and what it does to the world; [None] when the event
    cannot happen.  It takes for granted that React could show the last
    tree; [react_step] below adds what happens when React cannot. *)
Definition step (l : label) (w : world) : option world :=
  match l with
  | Change value =>
      if listens "input" "onChange" HandleChange (App (comp w))
      then Some (run (handleChange value) (dispatching w))
      else None
  | Submit =>
      if listens "form" "onSubmit" HandleSubmit (App (comp w))
      then Some (run (handleSubmit (userName (comp w))) (dispatching w))
      else None
  | Settle i o =>
      match nth_error (tasks w) i with
      | None => None
      | Some t =>
          match deliver (waiting t) o with
          | None => None
          | Some x => Some (run (resume t x) (with_tasks (remove_nth i) w))
          end
      end
  end.

Fixpoint steps (ls : list label) (w : world) : option world :=
  match ls with
  | [] => Some w
  | l :: rest =>
      match step l w with
      | None => None
      | Some w' => steps rest w'
      end
  end.

(** The worlds the mounted component can be in. *)
Inductive reachable : world -> Prop :=
| reach_mount : reachable mount
| reach_step l w w' : reachable w -> step l w = Some w' -> reachable w'.

(** *** The two places [handleSubmit] can be parked *)

(** The [catch] block of [handleSubmit]. *)
Definition on_error (error : exn) : prog unit :=
  setLoading false ;;
  console_error error.

(** The rest of [handleSubmit] once [fetch] has settled with [o]. *)
Definition after_fetch (o : settled response) : prog unit :=
  catch
    (response <- await (ret o) ;;
     data <- await (json response) ;;
     setUser data ;;
     setLoading false)
    on_error.

(** The rest of [handleSubmit] once [response.json()] has settled with
    [o]. *)
Definition after_json (o : settled jsval) : prog unit :=
  catch
    (data <- await (ret o) ;;
     setUser data ;;
     setLoading false)
    on_error.

Definition fetch_task (u : string) : task :=
  mkTask (Fetch ("https://api.github.com/users/" ++ u)) after_fetch.

Definition json_task (r : response) : task :=
  mkTask (Json r) after_json.

(** The loading flag and the parked handlers agree: nothing is parked
    while the form is shown, and while the indicator is shown exactly one
    [handleSubmit] is parked, at [fetch] or at [json]. *)
Inductive consistent (w : world) : Prop :=
| consistent_idle :
    loading (comp w) = false -> tasks w = [] -> consistent w
| consistent_fetching u :
    loading (comp w) = true -> tasks w = [fetch_task u] -> consistent w
| consistent_parsing r :
    loading (comp w) = true -> tasks w = [json_task r] -> consistent w.

(** [until_idle w w']: the event loop runs from [w], in one or more turns,
    to the first world [w'] whose loading flag is down. *)
Inductive until_idle : world -> world -> Prop :=
| until_idle_last l w w' :
    step l w = Some w' -> loading (comp w') = false -> until_idle w w'
| until_idle_next l w w' w'' :
    step l w = Some w' -> loading (comp w') = true ->
    until_idle w' w'' -> until_idle w w''.

(** ** React around the component *)

(** Can React show this value as a child?  A string or a number is shown
    as text; [null], [undefined] and a boolean show nothing; an array is
    shown item by item.  A plain object is refused: React throws "Objects
    are not valid as a React child". *)
Fixpoint renderable (v : jsval) : bool :=
  match v with
  | JObj _ => false
  | JArr items =>
      (fix all (l : list jsval) : bool :=
         match l with
         | [] => true
         | x :: rest => renderable x && all rest
         end) items
  | _ => true
  end.

(** Can React show this tree?  Only the values placed as children matter;
    a value placed as an attribute never makes React throw. *)
Fixpoint can_render (n : node) : bool :=
  match n with
  | Elem _ _ cs =>
      (fix all (l : list node) : bool :=
         match l with
         | [] => true
         | c :: rest => can_render c && all rest
         end) cs
  | Text _ => true
  | Val v => renderable v
  end.


(** The component on the page: its world, and whether it is still mounted.
    [App] sits under no error boundary, so when React cannot show the tree
    it returns, React unmounts the whole root. *)
Record page : Type := mkPage {
  world_of : world;
  mounted : bool
}.


(** One turn of the event loop on the page.  While the component is
    mounted the handler runs as in [step], its state changes are shown in
    one render, and a tree React cannot show unmounts the component.  Once
    unmounted, there is no form left to edit or submit; a parked handler
    still runs when its promise settles, but its state changes go
    nowhere. *)
Definition react_step (l : label) (p : page) : option page :=
  if mounted p then
    match step l (world_of p) with
    | None => None
    | Some w' =>
        Some {| world_of := w'; mounted := can_render (App (comp w')) |}
    end
  else
    match l with
    | Settle _ _ =>
        match step l (world_of p) with
        | None => None
        | Some w' =>
            Some {| world_of := with_comp (fun _ => comp (world_of p)) w';
                    mounted := false |}
        end
    | _ => None
    end.

Fixpoint react_steps (ls : list label) (p : page) : option page :=
  match ls with
  | [] => Some p
  | l :: rest =>
      match react_step l p with
      | None => None
      | Some p' => react_steps rest p'
      end
  end.





(** ** Example data *)

Definition octocat : jsval :=
  JObj [("login", JStr "octocat"); ("avatar_url", JStr "u");
        ("html_url", JStr "h"); ("bio", JStr "b")].

Definition not_found_body : jsval :=
  JObj [("message", JStr "Not Found");
        ("documentation_url", JStr "https://docs.github.com/rest")].

Definition response_200 : response :=
  {| status := 200; statusText := "OK"; rawBody := "" |}.

Definition response_404 : response :=
  {| status := 404; statusText := "Not Found"; rawBody := "" |}.

Definition failed_to_fetch : exn := JSError "TypeError" "Failed to fetch".

Definition unexpected_token : exn :=
  JSError "SyntaxError" "Unexpected token < in JSON at position 0".

(** The world after a submission is over: the component holds [u] as
    result, the console has received [errs], and one more request is on
    record. *)
Definition settled_world (w : world) (u : jsval) (errs : list exn) : world :=
  {| comp := {| userName := userName (comp w); user := u; loading := false |};
     console := (console w ++ errs)%list;
     network :=
       (network w
        ++ [get_request ("https://api.github.com/users/"
                         ++ userName (comp w))])%list;
     tasks := [];
     defaultPrevented := true;
     unhandled := unhandled w |}.

(** The world once "octocat" has been typed into the input. *)
Definition typed : world :=
  {| comp := {| userName := "octocat"; user := JNull; loading := false |};
     console := []; network := []; tasks := [];
     defaultPrevented := false; unhandled := [] |}.

(** The world once the lookup of "octocat" has succeeded. *)
Definition octocat_loaded : world :=
  {| comp := {| userName := "octocat"; user := octocat; loading := false |};
     console := [];
     network := [get_request "https://api.github.com/users/octocat"];
     tasks := [];
     defaultPrevented := true;
     unhandled := [] |}.


(** ** The tutorial's variant of the form

    [GitHubUserSearch] of the guide (src/unnamed/part_000): two state
    slots, no loading flag, and a result panel that links to the
    profile. *)
Module Tutorial.

Record component : Type := mkComponent {
  username : string;
  user : jsval
}.

(** The number [50] of [width={50}] as a double. *)
Definition fifty : spec_float :=
  S754_finite false 7036874417766400 (-47).

Definition GitHubUserSearch (st : component) : node :=
  Elem "div" []
    [ Elem "form" [("onSubmit", POn HandleSubmit)]
        [ Elem "input"
            [ ("type", PLit "text");
              ("value", PExpr (JStr (username st)));
              ("onChange", POn HandleChange);
              ("placeholder", PLit "Enter GitHub username") ] [];
          Elem "button" [("type", PLit "submit")] [Text "Search"] ];
      and_then (user st)
        (Elem "div" []
           [ Elem "img"
               [ ("src", PExpr (get (user st) "avatar_url"));
                 ("alt", PExpr (get (user st) "login"));
                 ("width", PExpr (JNum fifty)) ] [];
             Elem "p" [] [Val (get (user st) "login")];
             Elem "a"
               [ ("href", PExpr (get (user st) "html_url"));
                 ("target", PLit "_blank");
                 ("rel", PLit "noopener noreferrer") ]
               [Text "Profile"] ]) ].

(** [handleChange] of the guide: [setUsername(event.target.value)]. *)
Definition handleChange (value : string) : prog unit :=
  setUserName value.

(** [handleSubmit] of the guide: the promise chain
    [fetch(...).then(response => response.json()).then(data => setUser(data))],
    with no [catch] at its end. *)
Definition handleSubmit (username : string) : prog unit :=
  preventDefault ;;
  response <- await (fetch ("https://api.github.com/users/" ++ username)) ;;
  data <- await (json response) ;;
  setUser data.

Record world : Type := mkWorld {
  comp : component;
  console : list exn;
  network : list request;
  tasks : list task;
  defaultPrevented : bool;
  unhandled : list exn
}.

Definition mount : world :=
  {| comp := {| username := ""; user := JNull |};
     console := []; network := []; tasks := [];
     defaultPrevented := false; unhandled := [] |}.

Definition with_tasks (f : list task -> list task) (w : world) : world :=
  {| comp := comp w; console := console w; network := network w;
     tasks := f (tasks w); defaultPrevented := defaultPrevented w;
     unhandled := unhandled w |}.

Definition dispatching (w : world) : world :=
  {| comp := comp w; console := console w; network := network w;
     tasks := tasks w; defaultPrevented := false; unhandled := unhandled w |}.

(** One effect on the guide's component.  It has no loading slot and no
    handler of it sets one or writes to the console. *)
Definition exec (a : action) (w : world) : world * option (result a) :=
  match a return world * option (result a) with
  | PreventDefault =>
      ({| comp := comp w; console := console w; network := network w;
          tasks := tasks w; defaultPrevented := true;
          unhandled := unhandled w |}, Some tt)
  | SetUserName s =>
      ({| comp := {| username := s; user := user (comp w) |};
          console := console w; network := network w; tasks := tasks w;
          defaultPrevented := defaultPrevented w;
          unhandled := unhandled w |}, Some tt)
  | SetUser d =>
      ({| comp := {| username := username (comp w); user := d |};
          console := console w; network := network w; tasks := tasks w;
          defaultPrevented := defaultPrevented w;
          unhandled := unhandled w |}, Some tt)
  | SetLoading _ => (w, Some tt)
  | ConsoleError e =>
      ({| comp := comp w; console := (console w ++ [e])%list;
          network := network w; tasks := tasks w;
          defaultPrevented := defaultPrevented w;
          unhandled := unhandled w |}, Some tt)
  | Fetch u =>
      ({| comp := comp w; console := console w;
          network := (network w ++ [get_request u])%list; tasks := tasks w;
          defaultPrevented := defaultPrevented w;
          unhandled := unhandled w |}, None)
  | Json _ => (w, None)
  end.

Fixpoint run (p : prog unit) (w : world) : world :=
  match p with
  | Ret _ => w
  | Throw e =>
      {| comp := comp w; console := console w; network := network w;
         tasks := tasks w; defaultPrevented := defaultPrevented w;
         unhandled := (unhandled w ++ [e])%list |}
  | Act a k =>
      match exec a w with
      | (w', Some x) => run (k x) w'
      | (w', None) =>
          with_tasks (fun ts => (ts ++ [mkTask a k])%list) w'
      end
  end.

(** One turn of the event loop for the guide's component, as far as its
    own code goes; [react_step] below adds what React does when it cannot
    show the tree. *)
Definition step (l : label) (w : world) : option world :=
  match l with
  | Change value =>
      if listens "input" "onChange" HandleChange (GitHubUserSearch (comp w))
      then Some (run (handleChange value) (dispatching w))
      else None
  | Submit =>
      if listens "form" "onSubmit" HandleSubmit (GitHubUserSearch (comp w))
      then Some (run (handleSubmit (username (comp w))) (dispatching w))
      else None
  | Settle i o =>
      match nth_error (tasks w) i with
      | None => None
      | Some t =>
          match deliver (waiting t) o with
          | None => None
          | Some x => Some (run (resume t x) (with_tasks (remove_nth i) w))
          end
      end
  end.

Fixpoint steps (ls : list label) (w : world) : option world :=
  match ls with
  | [] => Some w
  | l :: rest =>
      match step l w with
      | None => None
      | Some w' => steps rest w'
      end
  end.

(** The guide's component on the page; see [react_step]. *)
Record page : Type := mkPage {
  world_of : world;
  mounted : bool
}.

Definition react_step (l : label) (p : page) : option page :=
  if mounted p then
    match step l (world_of p) with
    | None => None
    | Some w' =>
        Some {| world_of := w';
                mounted := can_render (GitHubUserSearch (comp w')) |}
    end
  else
    match l with
    | Settle _ _ =>
        match step l (world_of p) with
        | None => None
        | Some w' =>
            Some {| world_of :=
                      {| comp := comp (world_of p); console := console w';
                         network := network w'; tasks := tasks w';
                         defaultPrevented := defaultPrevented w';
                         unhandled := unhandled w' |};
                    mounted := false |}
        end
    | _ => None
    end.

Fixpoint react_steps (ls : list label) (p : page) : option page :=
  match ls with
  | [] => Some p
  | l :: rest =>
      match react_step l p with
      | None => None
      | Some p' => react_steps rest p'
      end
  end.

End Tutorial.

(** ** The [User] card (first component of src/src/User.tsx) *)

Record UserProps : Type := mkUserProps {
  name : string;
  age : spec_float;
  email : string
}.

Definition User (props : UserProps) : node :=
  Elem "div" []
    [ Elem "h1" [] [Text "Welcome "; Val (JStr (name props))];
      Elem "p" [] [Text "age : "; Val (JNum (age props))];
      Elem "p" [] [Text "email : "; Val (JStr (email props))] ].

(** ** What one event contributes *)

(** The call of [fetch] an event brings about. *)
Definition requested (l : label) (w : world) : list request :=
  match l with
  | Submit =>
      [get_request ("https://api.github.com/users/" ++ userName (comp w))]
  | _ => []
  end.

(** The error an event makes the [catch] block hand to [console.error]. *)
Definition logged (l : label) : list exn :=
  match l with
  | Settle _ (FetchSettled (Rejected e)) => [e]
  | Settle _ (JsonSettled (Rejected e)) => [e]
  | _ => []
  end.

(** The result slot after an event, given what it held before. *)
Definition stored (l : label) (before : jsval) : jsval :=
  match l with
  | Settle _ (JsonSettled (Fulfilled d)) => d
  | _ => before
  end.

(** The text after an event, given what it was before. *)
Definition entered (l : label) (before : string) : string :=
  match l with
  | Change s => s
  | _ => before
  end.

(** ** Running the handlers *)

Lemma run_handleChange (s : string) (w : world) :
  run (handleChange s) w =
  with_comp (fun c => {| userName := s; user := user c;
                         loading := loading c |}) w.
Proof. reflexivity. Qed.

(** [handleSubmit] up to its first [await]. *)
Lemma run_handleSubmit (u : string) (w : world) :
  run (handleSubmit u) w =
  {| comp := {| userName := userName (comp w); user := user (comp w);
                loading := true |};
     console := console w;
     network := (network w
                 ++ [get_request ("https://api.github.com/users/" ++ u)])%list;
     tasks := (tasks w ++ [fetch_task u])%list;
     defaultPrevented := true;
     unhandled := unhandled w |}.
Proof. reflexivity. Qed.

Lemma run_on_error (e : exn) (w : world) :
  run (on_error e) w =
  {| comp := {| userName := userName (comp w); user := user (comp w);
                loading := false |};
     console := (console w ++ [e])%list;
     network := network w;
     tasks := tasks w;
     defaultPrevented := defaultPrevented w;
     unhandled := unhandled w |}.
Proof. reflexivity. Qed.

Lemma run_after_fetch_rejected (e : exn) (w : world) :
  run (after_fetch (Rejected e)) w = run (on_error e) w.
Proof. reflexivity. Qed.

Lemma run_after_fetch_fulfilled (r : response) (w : world) :
  run (after_fetch (Fulfilled r)) w =
  with_tasks (fun ts => (ts ++ [json_task r])%list) w.
Proof. reflexivity. Qed.

Lemma run_after_json_rejected (e : exn) (w : world) :
  run (after_json (Rejected e)) w = run (on_error e) w.
Proof. reflexivity. Qed.

Lemma run_after_json_fulfilled (d : jsval) (w : world) :
  run (after_json (Fulfilled d)) w =
  {| comp := {| userName := userName (comp w); user := d;
                loading := false |};
     console := console w;
     network := network w;
     tasks := tasks w;
     defaultPrevented := defaultPrevented w;
     unhandled := unhandled w |}.
Proof. reflexivity. Qed.

(** ** What is rendered decides which events can happen *)

Lemma App_loading (st : component) :
  loading st = true -> App st = Elem "h1" [] [Text "Loading..."].
Proof. intros H. unfold App. rewrite H. reflexivity. Qed.

Lemma listens_change (st : component) :
  listens "input" "onChange" HandleChange (App st) = negb (loading st).
Proof.
  unfold App, and_then.
  destruct (loading st), (truthy (user st)); reflexivity.
Qed.

Lemma listens_submit (st : component) :
  listens "form" "onSubmit" HandleSubmit (App st) = negb (loading st).
Proof.
  unfold App, and_then.
  destruct (loading st), (truthy (user st)); reflexivity.
Qed.

Lemma step_change (s : string) (w : world) :
  loading (comp w) = false ->
  step (Change s) w = Some (run (handleChange s) (dispatching w)).
Proof. intros H. unfold step. rewrite listens_change, H. reflexivity. Qed.

Lemma step_submit (w : world) :
  loading (comp w) = false ->
  step Submit w = Some (run (handleSubmit (userName (comp w))) (dispatching w)).
Proof. intros H. unfold step. rewrite listens_submit, H. reflexivity. Qed.

Lemma step_change_loading (s : string) (w : world) :
  loading (comp w) = true -> step (Change s) w = None.
Proof. intros H. unfold step. rewrite listens_change, H. reflexivity. Qed.

Lemma step_submit_loading (w : world) :
  loading (comp w) = true -> step Submit w = None.
Proof. intros H. unfold step. rewrite listens_submit, H. reflexivity. Qed.

(** The only task of a world with one task is task 0. *)
Lemma nth_error_singleton {A : Type} (x y : A) (i : nat) :
  nth_error [x] i = Some y -> i = 0 /\ y = x.
Proof.
  destruct i as [|[|j]]; simpl; intros H; try discriminate.
  injection H as <-. split; reflexivity.
Qed.

(** ** The loading flag and the parked handlers stay in agreement *)

(** A turn taken while the form is shown. *)
Lemma step_idle (l : label) (w w' : world) :
  loading (comp w) = false -> tasks w = [] -> step l w = Some w' ->
  (exists s, l = Change s /\ w' = run (handleChange s) (dispatching w))
  \/ (l = Submit
      /\ w' = run (handleSubmit (userName (comp w))) (dispatching w)).
Proof.
  intros Hl Ht Hs. destruct l as [s| |i o].
  - rewrite (step_change s w Hl) in Hs. injection Hs as <-. left. eauto.
  - rewrite (step_submit w Hl) in Hs. injection Hs as <-. right. auto.
  - unfold step in Hs. rewrite Ht in Hs. destruct i; discriminate.
Qed.

(** A turn taken while [handleSubmit] is parked at [fetch]. *)
Lemma step_fetching (l : label) (u : string) (w w' : world) :
  loading (comp w) = true -> tasks w = [fetch_task u] -> step l w = Some w' ->
  exists o, l = Settle 0 (FetchSettled o)
            /\ w' = run (after_fetch o) (with_tasks (remove_nth 0) w).
Proof.
  intros Hl Ht Hs. destruct l as [s| |i o].
  - rewrite (step_change_loading s w Hl) in Hs. discriminate.
  - rewrite (step_submit_loading w Hl) in Hs. discriminate.
  - unfold step in Hs. rewrite Ht in Hs.
    destruct (nth_error [fetch_task u] i) as [t|] eqn:Hn; [|discriminate].
    apply nth_error_singleton in Hn. destruct Hn as [-> ->].
    destruct o as [o|o]; simpl in Hs; [|discriminate].
    injection Hs as <-. exists o. split; reflexivity.
Qed.

(** A turn taken while [handleSubmit] is parked at [json]. *)
Lemma step_parsing (l : label) (r : response) (w w' : world) :
  loading (comp w) = true -> tasks w = [json_task r] -> step l w = Some w' ->
  exists o, l = Settle 0 (JsonSettled o)
            /\ w' = run (after_json o) (with_tasks (remove_nth 0) w).
Proof.
  intros Hl Ht Hs. destruct l as [s| |i o].
  - rewrite (step_change_loading s w Hl) in Hs. discriminate.
  - rewrite (step_submit_loading w Hl) in Hs. discriminate.
  - unfold step in Hs. rewrite Ht in Hs.
    destruct (nth_error [json_task r] i) as [t|] eqn:Hn; [|discriminate].
    apply nth_error_singleton in Hn. destruct Hn as [-> ->].
    destruct o as [o|o]; simpl in Hs; [discriminate|].
    injection Hs as <-. exists o. split; reflexivity.
Qed.

Lemma consistent_mount : consistent mount.
Proof. apply consistent_idle; reflexivity. Qed.

Lemma step_consistent (l : label) (w w' : world) :
  consistent w -> step l w = Some w' -> consistent w'.
Proof.
  intros [Hl Ht|u Hl Ht|r Hl Ht] Hs.
  - destruct (step_idle l w w' Hl Ht Hs) as [[s [_ ->]]|[_ ->]].
    + apply consistent_idle; simpl; assumption.
    + apply (consistent_fetching _ (userName (comp w))); simpl;
        [reflexivity | rewrite Ht; reflexivity].
  - destruct (step_fetching l u w w' Hl Ht Hs) as [[r|e] [_ ->]].
    + apply (consistent_parsing _ r); simpl;
        [assumption | rewrite Ht; reflexivity].
    + apply consistent_idle; simpl; [reflexivity | rewrite Ht; reflexivity].
  - destruct (step_parsing l r w w' Hl Ht Hs) as [[d|e] [_ ->]].
    + apply consistent_idle; simpl; [reflexivity | rewrite Ht; reflexivity].
    + apply consistent_idle; simpl; [reflexivity | rewrite Ht; reflexivity].
Qed.

Lemma reachable_consistent (w : world) : reachable w -> consistent w.
Proof.
  induction 1 as [|l w w' _ IH Hs].
  - exact consistent_mount.
  - exact (step_consistent l w w' IH Hs).
Qed.

Lemma reachable_idle (w : world) :
  reachable w -> loading (comp w) = false -> tasks w = [].
Proof.
  intros Hr Hl.
  destruct (reachable_consistent w Hr) as [_ Ht|u Hl' _|r Hl' _];
    [assumption | congruence | congruence].
Qed.

Lemma reachable_steps (ls : list label) (w w' : world) :
  reachable w -> steps ls w = Some w' -> reachable w'.
Proof.
  revert w. induction ls as [|l ls IH]; simpl; intros w Hr Hs.
  - injection Hs as <-. assumption.
  - destruct (step l w) as [w1|] eqn:H1; [|discriminate].
    apply (IH w1); [exact (reach_step l w w1 Hr H1) | assumption].
Qed.

(** ** The three ways a submission settles *)

Lemma submission_network_failure (w : world) (e : exn) :
  loading (comp w) = false -> tasks w = [] ->
  steps [Submit; Settle 0 (FetchSettled (Rejected e))] w
  = Some (settled_world w (user (comp w)) [e]).
Proof.
  intros Hl Ht. unfold steps. rewrite (step_submit w Hl).
  unfold step, settled_world. simpl. rewrite Ht. reflexivity.
Qed.

Lemma submission_parse_failure (w : world) (r : response) (e : exn) :
  loading (comp w) = false -> tasks w = [] ->
  steps [Submit; Settle 0 (FetchSettled (Fulfilled r));
         Settle 0 (JsonSettled (Rejected e))] w
  = Some (settled_world w (user (comp w)) [e]).
Proof.
  intros Hl Ht. unfold steps. rewrite (step_submit w Hl).
  unfold step, settled_world. simpl. rewrite Ht. reflexivity.
Qed.

Lemma submission_success (w : world) (r : response) (d : jsval) :
  loading (comp w) = false -> tasks w = [] ->
  steps [Submit; Settle 0 (FetchSettled (Fulfilled r));
         Settle 0 (JsonSettled (Fulfilled d))] w
  = Some (settled_world w d []).
Proof.
  intros Hl Ht. unfold steps. rewrite (step_submit w Hl).
  unfold step, settled_world. simpl. rewrite Ht, app_nil_r. reflexivity.
Qed.

(** ** Example worlds *)

Lemma typed_reachable : reachable typed.
Proof.
  apply (reachable_steps [Change "octocat"] mount); [constructor | reflexivity].
Qed.

Lemma octocat_loaded_reachable : reachable octocat_loaded.
Proof.
  apply (reachable_steps
           [Change "octocat"; Submit;
            Settle 0 (FetchSettled (Fulfilled response_200));
            Settle 0 (JsonSettled (Fulfilled octocat))] mount);
    [constructor | reflexivity].
Qed.

(** ** Failure of a submission *)

(** C1: a submission that ends in network failure ([fetch] rejects), or in
    a body that does not parse ([response.json()] rejects), hands the error
    to [console.error], puts the loading flag down, and leaves the result
    slot at the value it had before the submission. *)
Theorem handleSubmit_failure (w : world) (r : response) (e : exn) :
  reachable w -> loading (comp w) = false ->
  (exists w',
      steps [Submit; Settle 0 (FetchSettled (Rejected e))] w = Some w'
      /\ console w' = (console w ++ [e])%list
      /\ loading (comp w') = false
      /\ user (comp w') = user (comp w))
  /\ (exists w',
         steps [Submit; Settle 0 (FetchSettled (Fulfilled r));
                Settle 0 (JsonSettled (Rejected e))] w = Some w'
         /\ console w' = (console w ++ [e])%list
         /\ loading (comp w') = false
         /\ user (comp w') = user (comp w)).
Proof.
  intros Hr Hl. pose proof (reachable_idle w Hr Hl) as Ht. split.
  - exists (settled_world w (user (comp w)) [e]).
    rewrite (submission_network_failure w e Hl Ht). repeat split.
  - exists (settled_world w (user (comp w)) [e]).
    rewrite (submission_parse_failure w r e Hl Ht). repeat split.
Qed.

Lemma handleSubmit_failure_witness :
  reachable octocat_loaded /\ loading (comp octocat_loaded) = false
  /\ (exists w',
         steps [Submit; Settle 0 (FetchSettled (Rejected failed_to_fetch))]
           octocat_loaded = Some w'
         /\ console w' = [failed_to_fetch]
         /\ loading (comp w') = false
         /\ user (comp w') = octocat)
  /\ (exists w',
         steps [Submit; Settle 0 (FetchSettled (Fulfilled response_200));
                Settle 0 (JsonSettled (Rejected failed_to_fetch))]
           octocat_loaded = Some w'
         /\ console w' = [failed_to_fetch]
         /\ loading (comp w') = false
         /\ user (comp w') = octocat).
Proof.
  split; [exact octocat_loaded_reachable |].
  split; [reflexivity |].
  apply (handleSubmit_failure octocat_loaded response_200 failed_to_fetch);
    [exact octocat_loaded_reachable | reflexivity].
Defined.

(** ** Success of a submission *)

(** C2: when the request succeeds and the body parses, the result slot
    holds exactly the parsed value, whatever its shape, and the loading
    flag is down afterwards; in particular, typing "octocat" and submitting
    against a server that answers with the octocat record leaves that
    record in the result slot. *)
Theorem handleSubmit_success (w : world) (r : response) (d : jsval) :
  reachable w -> loading (comp w) = false ->
  (exists w',
      steps [Submit; Settle 0 (FetchSettled (Fulfilled r));
             Settle 0 (JsonSettled (Fulfilled d))] w = Some w'
      /\ user (comp w') = d
      /\ loading (comp w') = false)
  /\ (exists w',
         steps [Change "octocat"; Submit;
                Settle 0 (FetchSettled (Fulfilled r));
                Settle 0 (JsonSettled (Fulfilled octocat))] mount = Some w'
         /\ userName (comp w') = "octocat"
         /\ user (comp w') = octocat
         /\ loading (comp w') = false).
Proof.
  intros Hr Hl. pose proof (reachable_idle w Hr Hl) as Ht. split.
  - exists (settled_world w d []).
    rewrite (submission_success w r d Hl Ht). repeat split.
  - eexists. split; [reflexivity | repeat split].
Qed.

Lemma handleSubmit_success_witness :
  reachable typed /\ loading (comp typed) = false
  /\ (exists w',
         steps [Submit; Settle 0 (FetchSettled (Fulfilled response_200));
                Settle 0 (JsonSettled (Fulfilled (JArr [JBool true])))] typed
         = Some w'
         /\ user (comp w') = JArr [JBool true]
         /\ loading (comp w') = false)
  /\ (exists w',
         steps [Change "octocat"; Submit;
                Settle 0 (FetchSettled (Fulfilled response_200));
                Settle 0 (JsonSettled (Fulfilled octocat))] mount = Some w'
         /\ userName (comp w') = "octocat"
         /\ user (comp w') = octocat
         /\ loading (comp w') = false).
Proof.
  split; [exact typed_reachable |].
  split; [reflexivity |].
  apply (handleSubmit_success typed response_200 (JArr [JBool true]));
    [exact typed_reachable | reflexivity].
Defined.

(** C9: the status code plays no part.  Whenever the body parses, the
    submission ends the same way for every response: the parsed value
    overwrites the result slot, the loading flag goes down, and nothing is
    reported to the console.  A 404 whose body is a JSON error object
    therefore replaces a previously loaded user by that error object. *)
Theorem handleSubmit_ignores_status (w : world) (d : jsval) :
  reachable w -> loading (comp w) = false ->
  exists w',
    (forall r : response,
        steps [Submit; Settle 0 (FetchSettled (Fulfilled r));
               Settle 0 (JsonSettled (Fulfilled d))] w = Some w')
    /\ user (comp w') = d
    /\ loading (comp w') = false
    /\ console w' = console w.
Proof.
  intros Hr Hl. pose proof (reachable_idle w Hr Hl) as Ht.
  exists (settled_world w d []). split.
  - intros r. exact (submission_success w r d Hl Ht).
  - simpl. rewrite app_nil_r. repeat split.
Qed.

Lemma handleSubmit_ignores_status_witness :
  reachable octocat_loaded /\ loading (comp octocat_loaded) = false
  /\ ok response_404 = false
  /\ exists w',
      steps [Submit; Settle 0 (FetchSettled (Fulfilled response_404));
             Settle 0 (JsonSettled (Fulfilled not_found_body))]
        octocat_loaded = Some w'
      /\ user (comp w') = not_found_body
      /\ loading (comp w') = false
      /\ console w' = [].
Proof.
  split; [exact octocat_loaded_reachable |].
  split; [reflexivity |].
  split; [reflexivity |].
  destruct (handleSubmit_ignores_status octocat_loaded not_found_body
              octocat_loaded_reachable eq_refl) as [w' [Hs Hrest]].
  exists w'. split; [exact (Hs response_404) | exact Hrest].
Defined.

(** ** The request *)

(** C3, as amended: whatever text [q] is in the input, submitting calls
    [fetch] once, with one argument: the string
    [https://api.github.com/users/] followed by [q] character for
    character, nothing escaped and nothing checked.  No options are handed
    over, so the component asks for the default method GET and adds no
    header, no credentials and no body. *)
Theorem handleSubmit_request (w : world) (q : string) :
  loading (comp w) = false ->
  exists w',
    steps [Change q; Submit] w = Some w'
    /\ network w' =
       (network w
        ++ [ {| input := "https://api.github.com/users/" ++ q;
                init := None |} ])%list.
Proof.
  intros Hl. eexists. split.
  - unfold steps. rewrite (step_change q w Hl).
    rewrite step_submit; [reflexivity | exact Hl].
  - reflexivity.
Qed.

Lemma handleSubmit_request_witness :
  loading (comp mount) = false
  /\ exists w',
      steps [Change "a b/c?d=1&e"; Submit] mount = Some w'
      /\ network w' =
         [ {| input := "https://api.github.com/users/a b/c?d=1&e";
              init := None |} ].
Proof.
  split; [reflexivity |].
  apply (handleSubmit_request mount "a b/c?d=1&e"). reflexivity.
Defined.

(** The address handed to [fetch] for "octocat" is not one at
    [api.example.com]; and a [?] typed into the input arrives in the
    address as it is, where it starts a query. *)
Lemma handleSubmit_request_counterexample :
  (exists w',
      steps [Change "octocat"; Submit] mount = Some w'
      /\ map input (network w') <> ["https://api.example.com/users/octocat"])
  /\ (exists w',
         steps [Change "octocat?tab=repos"; Submit] mount = Some w'
         /\ map input (network w')
            = ["https://api.github.com/users/octocat?tab=repos"]).
Proof.
  split.
  - eexists. split; [reflexivity |].
    simpl. intros H. discriminate H.
  - eexists. split; reflexivity.
Qed.

(** ** Editing the input *)

(** C8: [handleChange] replaces the text by the new one whatever both are.
    It touches no other slot, prints nothing, throws nothing and parks
    nothing, and whenever the form is shown the edit is accepted. *)
Theorem handleChange_replaces (w : world) (s : string) :
  userName (comp (run (handleChange s) w)) = s
  /\ user (comp (run (handleChange s) w)) = user (comp w)
  /\ loading (comp (run (handleChange s) w)) = loading (comp w)
  /\ console (run (handleChange s) w) = console w
  /\ unhandled (run (handleChange s) w) = unhandled w
  /\ tasks (run (handleChange s) w) = tasks w
  /\ network (run (handleChange s) w) = network w
  /\ (loading (comp w) = false ->
      step (Change s) w = Some (run (handleChange s) (dispatching w))).
Proof.
  repeat split. exact (step_change s w).
Qed.

Lemma handleChange_replaces_witness :
  loading (comp octocat_loaded) = false
  /\ userName (comp (run (handleChange "") octocat_loaded)) = ""
  /\ exists w', step (Change "") octocat_loaded = Some w'
                /\ userName (comp w') = "" /\ user (comp w') = octocat.
Proof.
  split; [reflexivity |].
  destruct (handleChange_replaces octocat_loaded "")
    as [H1 [_ [_ [_ [_ [_ [_ H8]]]]]]].
  split; [exact H1 |].
  exists (run (handleChange "") (dispatching octocat_loaded)).
  split; [exact (H8 eq_refl) | split; reflexivity].
Defined.

(** ** Rendering *)

(** C5: while the loading flag is up, [App] returns the loading indicator
    and nothing else: no form, no input, no button, no result panel, no
    value of the state, and no handler an event could reach. *)
Theorem App_loading_indicator_only (st : component) :
  loading st = true ->
  App st = Elem "h1" [] [Text "Loading..."]
  /\ texts (App st) = ["Loading..."]
  /\ elements "form" (App st) = []
  /\ elements "input" (App st) = []
  /\ elements "button" (App st) = []
  /\ elements "div" (App st) = []
  /\ elements "p" (App st) = []
  /\ elements "img" (App st) = []
  /\ values (App st) = []
  /\ listens "form" "onSubmit" HandleSubmit (App st) = false
  /\ listens "input" "onChange" HandleChange (App st) = false.
Proof.
  intros H. rewrite (App_loading st H). repeat split.
Qed.

Lemma App_loading_indicator_only_witness :
  loading {| userName := "octocat"; user := octocat; loading := true |} = true
  /\ App {| userName := "octocat"; user := octocat; loading := true |}
     = Elem "h1" [] [Text "Loading..."].
Proof.
  split; [reflexivity |].
  apply (App_loading_indicator_only
           {| userName := "octocat"; user := octocat; loading := true |}).
  reflexivity.
Defined.

(** C6, as amended: while the loading flag is down, [App] returns the
    form, whose one input shows the current text and reports edits to
    [handleChange], and the button.  With a falsy result ([null], but also
    zero, the empty string or [false]) no panel follows the form, only the
    value itself; with a truthy result, which every record is, the panel
    follows, showing its [name], [bio] and [avatar_url]. *)
Theorem App_idle_view (st : component) :
  loading st = false ->
  elements "form" (App st) = [[("onSubmit", POn HandleSubmit)]]
  /\ elements "input" (App st)
     = [[ ("type", PLit "text"); ("placeholder", PLit "Enter username");
          ("value", PExpr (JStr (userName st)));
          ("onChange", POn HandleChange) ]]
  /\ elements "button" (App st) = [[]]
  /\ (truthy (user st) = false ->
      App st =
      Elem "div" []
        [ Elem "form" [("onSubmit", POn HandleSubmit)]
            [ Elem "input"
                [ ("type", PLit "text");
                  ("placeholder", PLit "Enter username");
                  ("value", PExpr (JStr (userName st)));
                  ("onChange", POn HandleChange) ] [];
              Elem "button" [] [Text "Search"] ];
          Val (user st) ])
  /\ (truthy (user st) = true ->
      App st =
      Elem "div" []
        [ Elem "form" [("onSubmit", POn HandleSubmit)]
            [ Elem "input"
                [ ("type", PLit "text");
                  ("placeholder", PLit "Enter username");
                  ("value", PExpr (JStr (userName st)));
                  ("onChange", POn HandleChange) ] [];
              Elem "button" [] [Text "Search"] ];
          Elem "div" []
            [ Elem "h1" [] [Val (get (user st) "name")];
              Elem "p" [] [Val (get (user st) "bio")];
              Elem "img"
                [ ("src", PExpr (get (user st) "avatar_url"));
                  ("alt", PLit "") ] [] ] ])
  /\ truthy JNull = false
  /\ (forall fields, truthy (JObj fields) = true).
Proof.
  intros H. unfold App, and_then. rewrite H.
  split; [destruct (truthy (user st)); reflexivity |].
  split; [destruct (truthy (user st)); reflexivity |].
  split; [destruct (truthy (user st)); reflexivity |].
  split; [intros ->; reflexivity |].
  split; [intros ->; reflexivity |].
  split; [reflexivity | intros fields; reflexivity].
Qed.

Lemma App_idle_view_witness :
  loading (comp octocat_loaded) = false
  /\ truthy (user (comp octocat_loaded)) = true
  /\ App (comp octocat_loaded) =
     Elem "div" []
       [ Elem "form" [("onSubmit", POn HandleSubmit)]
           [ Elem "input"
               [ ("type", PLit "text");
                 ("placeholder", PLit "Enter username");
                 ("value", PExpr (JStr "octocat"));
                 ("onChange", POn HandleChange) ] [];
             Elem "button" [] [Text "Search"] ];
         Elem "div" []
           [ Elem "h1" [] [Val JUndefined];
             Elem "p" [] [Val (JStr "b")];
             Elem "img" [("src", PExpr (JStr "u")); ("alt", PLit "")] [] ] ].
Proof.
  split; [reflexivity |]. split; [reflexivity |].
  destruct (App_idle_view (comp octocat_loaded) eq_refl)
    as [_ [_ [_ [_ [H _]]]]].
  exact (H eq_refl).
Defined.

(** A result that is present but falsy: the server answers with the
    number zero, the result slot holds it, and no panel is shown. *)
Lemma App_idle_view_counterexample :
  exists w,
    steps [Submit; Settle 0 (FetchSettled (Fulfilled response_200));
           Settle 0 (JsonSettled (Fulfilled (JNum (S754_zero false))))] mount
    = Some w
    /\ loading (comp w) = false
    /\ user (comp w) = JNum (S754_zero false)
    /\ user (comp w) <> JNull
    /\ elements "h1" (App (comp w)) = []
    /\ elements "p" (App (comp w)) = []
    /\ elements "img" (App (comp w)) = [].
Proof.
  eexists. split; [reflexivity |].
  repeat split. simpl. discriminate.
Qed.

(** The panel is there exactly when the form is shown and the result slot
    holds a truthy value. *)
Lemma App_panel_shown (st : component) :
  elements "img" (App st) <> [] <->
  loading st = false /\ truthy (user st) = true.
Proof.
  unfold App, and_then.
  destruct (loading st), (truthy (user st)); simpl; split;
    try (intros H; exfalso; apply H; reflexivity);
    try (intros [H1 H2]; discriminate);
    try (intros _; split; reflexivity);
    try (intros _; discriminate).
Qed.

(** C7, as amended: the screen [App] returns while not loading has one
    text input and one button; its result panel, present exactly when the
    result slot holds a truthy value, consists of two text fields (a
    heading with [name], a paragraph with [bio]) and one image; there is
    no hyperlink anywhere on the screen. *)
Theorem App_screen (st : component) :
  loading st = false ->
  length (elements "input" (App st)) = 1
  /\ (forall ps, In ps (elements "input" (App st)) ->
                 find_prop "type" ps = Some (PLit "text"))
  /\ length (elements "button" (App st)) = 1
  /\ elements "a" (App st) = []
  /\ (truthy (user st) = true ->
      elements "h1" (App st) = [[]]
      /\ elements "p" (App st) = [[]]
      /\ elements "img" (App st)
         = [[("src", PExpr (get (user st) "avatar_url")); ("alt", PLit "")]]
      /\ values (App st)
         = [JStr (userName st); get (user st) "name"; get (user st) "bio";
            get (user st) "avatar_url"])
  /\ (truthy (user st) = false ->
      elements "h1" (App st) = []
      /\ elements "p" (App st) = []
      /\ elements "img" (App st) = []
      /\ values (App st) = [JStr (userName st); user st]).
Proof.
  intros H. unfold App, and_then. rewrite H.
  destruct (truthy (user st)); simpl.
  - repeat split; try discriminate.
    intros ps [<-|[]]. reflexivity.
  - repeat split; try discriminate.
    intros ps [<-|[]]. reflexivity.
Qed.

Lemma App_screen_witness :
  loading (comp octocat_loaded) = false
  /\ length (elements "input" (App (comp octocat_loaded))) = 1
  /\ length (elements "button" (App (comp octocat_loaded))) = 1
  /\ elements "a" (App (comp octocat_loaded)) = []
  /\ elements "img" (App (comp octocat_loaded))
     = [[("src", PExpr (JStr "u")); ("alt", PLit "")]].
Proof.
  split; [reflexivity |].
  destruct (App_screen (comp octocat_loaded) eq_refl)
    as [H1 [_ [H3 [H4 [H5 _]]]]].
  destruct (H5 eq_refl) as [_ [_ [H7 _]]].
  repeat split; assumption.
Defined.

(** With a user loaded, the screen has no hyperlink, hence none that opens
    in a new browsing context. *)
Lemma App_screen_counterexample :
  loading (comp octocat_loaded) = false
  /\ truthy (user (comp octocat_loaded)) = true
  /\ ~ (exists ps, In ps (elements "a" (App (comp octocat_loaded)))
                   /\ find_prop "target" ps = Some (PLit "_blank")).
Proof.
  split; [reflexivity |]. split; [reflexivity |].
  intros [ps [[] _]].
Qed.

(** ** The loading flag over the life of the component *)

Lemma settle_fetch (w : world) (u : string) (o : settled response) :
  tasks w = [fetch_task u] ->
  step (Settle 0 (FetchSettled o)) w
  = Some (run (after_fetch o) (with_tasks (remove_nth 0) w)).
Proof. intros Ht. unfold step. rewrite Ht. reflexivity. Qed.

Lemma settle_json (w : world) (r : response) (o : settled jsval) :
  tasks w = [json_task r] ->
  step (Settle 0 (JsonSettled o)) w
  = Some (run (after_json o) (with_tasks (remove_nth 0) w)).
Proof. intros Ht. unfold step. rewrite Ht. reflexivity. Qed.


(** From every world the component can be in, the form comes back. *)
Lemma consistent_returns (w : world) :
  consistent w ->
  exists ls w', steps ls w = Some w' /\ loading (comp w') = false.
Proof.
  intros [Hl Ht|u Hl Ht|r Hl Ht].
  - exists [], w. split; [reflexivity | assumption].
  - exists [Settle 0 (FetchSettled (Rejected failed_to_fetch))]. eexists.
    unfold steps. rewrite (settle_fetch w u _ Ht). split; reflexivity.
  - exists [Settle 0 (JsonSettled (Rejected unexpected_token))]. eexists.
    unfold steps. rewrite (settle_json w r _ Ht). split; reflexivity.
Qed.

(** *** React around the component *)


















(** ** The text is not touched by a submission *)

(** While the indicator is shown, no turn of the event loop changes the
    text. *)
Lemma step_loading_userName (l : label) (w w' : world) :
  consistent w -> loading (comp w) = true -> step l w = Some w' ->
  userName (comp w') = userName (comp w).
Proof.
  intros [Hl' _|u _ Ht|r _ Ht] Hl Hs.
  - congruence.
  - destruct (step_fetching l u w w' Hl Ht Hs) as [[r|e] [_ ->]]; reflexivity.
  - destruct (step_parsing l r w w' Hl Ht Hs) as [[d|e] [_ ->]]; reflexivity.
Qed.

Lemma until_idle_userName (w w' : world) :
  until_idle w w' -> consistent w -> loading (comp w) = true ->
  userName (comp w') = userName (comp w).
Proof.
  induction 1 as [l w w' Hs _|l w w' w'' Hs Hl' _ IH]; intros Hc Hl.
  - exact (step_loading_userName l w w' Hc Hl Hs).
  - rewrite (IH (step_consistent l w w' Hc Hs) Hl').
    exact (step_loading_userName l w w' Hc Hl Hs).
Qed.

(** C10: [handleSubmit] never writes the text.  However a submission
    settles, the text at the first moment the loading flag is down again
    is the text at the moment of submission. *)
Theorem handleSubmit_keeps_userName (w w1 w2 : world) :
  reachable w -> step Submit w = Some w1 -> until_idle w1 w2 ->
  userName (comp w2) = userName (comp w).
Proof.
  intros Hr Hs Hu.
  assert (Hr1 : reachable w1) by exact (reach_step Submit w w1 Hr Hs).
  destruct (loading (comp w)) eqn:Hl.
  - rewrite (step_submit_loading w Hl) in Hs. discriminate.
  - rewrite (step_submit w Hl) in Hs. injection Hs as <-.
    rewrite (until_idle_userName _ w2 Hu (reachable_consistent _ Hr1) eq_refl).
    reflexivity.
Qed.

Lemma handleSubmit_keeps_userName_witness :
  reachable typed
  /\ step Submit typed = Some (run (handleSubmit "octocat") (dispatching typed))
  /\ until_idle (run (handleSubmit "octocat") (dispatching typed))
       (settled_world typed octocat [])
  /\ userName (comp (settled_world typed octocat [])) = "octocat".
Proof.
  assert (Hu : until_idle (run (handleSubmit "octocat") (dispatching typed))
                 (settled_world typed octocat [])).
  { apply (until_idle_next (Settle 0 (FetchSettled (Fulfilled response_200)))
             _ (with_tasks (fun _ => [json_task response_200])
                  (run (handleSubmit "octocat") (dispatching typed))));
      [reflexivity | reflexivity |].
    apply (until_idle_last (Settle 0 (JsonSettled (Fulfilled octocat))));
      reflexivity. }
  split; [exact typed_reachable |].
  split; [reflexivity |].
  split; [exact Hu |].
  exact (handleSubmit_keeps_userName typed _ _ typed_reachable eq_refl Hu).
Defined.

(** ** The tutorial's variant *)

(** X17: the result panel of the guide's [GitHubUserSearch] has exactly
    one hyperlink, to the result's [html_url]; it opens in a new browsing
    context with [rel="noopener noreferrer"], next to one image and one
    text field. *)
Lemma tutorial_panel (st : Tutorial.component) :
  truthy (Tutorial.user st) = true ->
  elements "a" (Tutorial.GitHubUserSearch st)
  = [[ ("href", PExpr (get (Tutorial.user st) "html_url"));
       ("target", PLit "_blank");
       ("rel", PLit "noopener noreferrer") ]]
  /\ length (elements "img" (Tutorial.GitHubUserSearch st)) = 1
  /\ length (elements "p" (Tutorial.GitHubUserSearch st)) = 1
  /\ elements "h1" (Tutorial.GitHubUserSearch st) = [].
Proof.
  intros H. unfold Tutorial.GitHubUserSearch, and_then. rewrite H.
  repeat split.
Qed.

(** ** What each event does to the world *)

(** One turn of the event loop, field by field: the request it issues, the
    error it prints, the result and the text it leaves. *)
Lemma step_effect (l : label) (w w' : world) :
  consistent w -> step l w = Some w' ->
  network w' = (network w ++ requested l w)%list
  /\ console w' = (console w ++ logged l)%list
  /\ user (comp w') = stored l (user (comp w))
  /\ userName (comp w') = entered l (userName (comp w))
  /\ unhandled w' = unhandled w.
Proof.
  intros [Hl Ht|u Hl Ht|r Hl Ht] Hs.
  - destruct (step_idle l w w' Hl Ht Hs) as [[s [-> ->]]|[-> ->]];
      simpl; rewrite ?app_nil_r; repeat split.
  - destruct (step_fetching l u w w' Hl Ht Hs) as [[r|e] [-> ->]];
      simpl; rewrite ?app_nil_r; repeat split.
  - destruct (step_parsing l r w w' Hl Ht Hs) as [[d|e] [-> ->]];
      simpl; rewrite ?app_nil_r; repeat split.
Qed.

(** X1: at most one request is in flight.  In every world the component can
    be in, one handler is parked while the loading flag is up and none
    while it is down, and while it is up neither a submission nor an edit
    can happen. *)
Theorem one_request_in_flight (w : world) :
  reachable w ->
  length (tasks w) = (if loading (comp w) then 1 else 0)
  /\ (loading (comp w) = true ->
      step Submit w = None /\ forall s, step (Change s) w = None).
Proof.
  intros Hr. split.
  - destruct (reachable_consistent w Hr) as [Hl Ht|u Hl Ht|r Hl Ht];
      rewrite Hl, Ht; reflexivity.
  - intros Hl. split.
    + exact (step_submit_loading w Hl).
    + intros s. exact (step_change_loading s w Hl).
Qed.

Lemma one_request_in_flight_witness :
  exists w,
    steps [Change "octocat"; Submit] mount = Some w
    /\ length (tasks w) = 1
    /\ step Submit w = None.
Proof.
  exists (run (handleSubmit "octocat") (dispatching typed)).
  assert (Hr : reachable (run (handleSubmit "octocat") (dispatching typed))).
  { apply (reachable_steps [Change "octocat"; Submit] mount);
      [constructor | reflexivity]. }
  destruct (one_request_in_flight _ Hr) as [H1 H2].
  split; [reflexivity |]. split; [exact H1 |].
  exact (proj1 (H2 eq_refl)).
Defined.

(** X2: only a submission touches the network, and it issues exactly one
    request; an edit or a settlement, failed or not, issues none, so
    nothing is ever retried. *)
Theorem only_submit_requests (l : label) (w w' : world) :
  reachable w -> step l w = Some w' ->
  network w' = (network w ++ requested l w)%list
  /\ (l <> Submit -> network w' = network w).
Proof.
  intros Hr Hs.
  destruct (step_effect l w w' (reachable_consistent w Hr) Hs) as [Hn _].
  split; [exact Hn |].
  intros Hne. rewrite Hn.
  destruct l; [| congruence |]; simpl; apply app_nil_r.
Qed.

Lemma only_submit_requests_witness :
  exists w w',
    steps [Change "octocat"; Submit] mount = Some w
    /\ step (Settle 0 (FetchSettled (Rejected failed_to_fetch))) w = Some w'
    /\ network w' = network w.
Proof.
  exists (run (handleSubmit "octocat") (dispatching typed)).
  eexists.
  assert (Hr : reachable (run (handleSubmit "octocat") (dispatching typed))).
  { apply (reachable_steps [Change "octocat"; Submit] mount);
      [constructor | reflexivity]. }
  split; [reflexivity |]. split; [reflexivity |].
  refine (proj2 (only_submit_requests
                   (Settle 0 (FetchSettled (Rejected failed_to_fetch)))
                   _ _ Hr eq_refl) _).
  discriminate.
Defined.

(** X3: the component's own code calls [console.error] exactly when a
    promise is rejected, and hands it the rejection itself: the only call
    is the one in the [catch] block of [handleSubmit].  On a success, an
    edit or a submission the component prints nothing, and the list of its
    calls only grows.  (What React prints there on its own account is not
    the component's call and is not counted.) *)
Theorem console_logs_rejections (l : label) (w w' : world) :
  reachable w -> step l w = Some w' ->
  console w' = (console w ++ logged l)%list.
Proof.
  intros Hr Hs.
  exact (proj1 (proj2 (step_effect l w w' (reachable_consistent w Hr) Hs))).
Qed.

Lemma console_logs_rejections_witness :
  exists w w',
    steps [Change "octocat"; Submit;
           Settle 0 (FetchSettled (Fulfilled response_200))] mount = Some w
    /\ step (Settle 0 (JsonSettled (Rejected unexpected_token))) w = Some w'
    /\ console w' = [unexpected_token].
Proof.
  pose (w := with_tasks (fun _ => [json_task response_200])
               (run (handleSubmit "octocat") (dispatching typed))).
  assert (Hr : reachable w).
  { apply (reachable_steps
             [Change "octocat"; Submit;
              Settle 0 (FetchSettled (Fulfilled response_200))] mount);
      [constructor | reflexivity]. }
  exists w. eexists.
  split; [reflexivity |]. split; [reflexivity |].
  exact (console_logs_rejections
           (Settle 0 (JsonSettled (Rejected unexpected_token))) w _
           Hr eq_refl).
Defined.



(** X5: no error escapes [handleSubmit] or [handleChange]: in no world the
    component can be in is there a rejection that nothing caught. *)
Theorem no_unhandled_rejection (w : world) :
  reachable w -> unhandled w = [].
Proof.
  induction 1 as [|l w w' Hr IH Hs].
  - reflexivity.
  - destruct (step_effect l w w' (reachable_consistent w Hr) Hs)
      as [_ [_ [_ [_ Hu]]]].
    rewrite Hu. exact IH.
Qed.

Lemma no_unhandled_rejection_witness :
  exists w,
    steps [Submit; Settle 0 (FetchSettled (Rejected failed_to_fetch))] mount
    = Some w
    /\ unhandled w = [].
Proof.
  eexists. split; [reflexivity |].
  apply no_unhandled_rejection.
  apply (reachable_steps
           [Submit; Settle 0 (FetchSettled (Rejected failed_to_fetch))] mount);
    [constructor | reflexivity].
Defined.

(** X7: each call of [console.error] the component makes belongs to a
    call of [fetch] of its own: its calls of [console.error], plus the
    submission in flight if there is one, never outnumber its calls of
    [fetch]. *)
Theorem errors_bounded_by_requests (w : world) :
  reachable w ->
  length (console w) + (if loading (comp w) then 1 else 0)
  <= length (network w).
Proof.
  induction 1 as [|l w w' Hr IH Hs].
  - simpl. lia.
  - destruct (reachable_consistent w Hr) as [Hl Ht|u Hl Ht|r Hl Ht];
      rewrite Hl in IH.
    + destruct (step_idle l w w' Hl Ht Hs) as [[s [_ ->]]|[_ ->]]; simpl.
      * rewrite Hl. exact IH.
      * rewrite length_app. simpl. lia.
    + destruct (step_fetching l u w w' Hl Ht Hs) as [[r|e] [_ ->]]; simpl.
      * rewrite Hl. exact IH.
      * rewrite length_app. simpl. lia.
    + destruct (step_parsing l r w w' Hl Ht Hs) as [[d|e] [_ ->]]; simpl.
      * lia.
      * rewrite length_app. simpl. lia.
Qed.

Lemma errors_bounded_by_requests_witness :
  exists w,
    steps [Submit; Settle 0 (FetchSettled (Rejected failed_to_fetch)); Submit]
      mount = Some w
    /\ length (console w) + 1 <= length (network w).
Proof.
  eexists. split; [reflexivity |].
  refine (errors_bounded_by_requests _ _).
  apply (reachable_steps
           [Submit; Settle 0 (FetchSettled (Rejected failed_to_fetch)); Submit]
           mount); [constructor | reflexivity].
Defined.

Lemma last_cons {A : Type} (l : list A) (x d : A) :
  last (x :: l) d = last l x.
Proof.
  revert x d. induction l as [|y l IH]; intros x d; [reflexivity |].
  change (last (x :: y :: l) d) with (last (y :: l) d).
  rewrite (IH y d), (IH y x). reflexivity.
Qed.

(** X8: a run of edits leaves the last text typed.  While the form is
    shown every edit is accepted, whatever the text, and the whole run
    changes nothing but the text: no request, no console output, and the
    result stays. *)
Theorem edits_last_wins (texts : list string) (w : world) :
  loading (comp w) = false ->
  exists w',
    steps (map Change texts) w = Some w'
    /\ userName (comp w') = last texts (userName (comp w))
    /\ user (comp w') = user (comp w)
    /\ loading (comp w') = false
    /\ network w' = network w
    /\ console w' = console w
    /\ tasks w' = tasks w.
Proof.
  revert w. induction texts as [|s texts IH]; intros w Hl.
  - exists w. repeat split. exact Hl.
  - destruct (IH (run (handleChange s) (dispatching w)) Hl)
      as [w' [Hs [H1 [H2 [H3 [H4 [H5 H6]]]]]]].
    exists w'. cbn [map steps]. rewrite (step_change s w Hl).
    split; [exact Hs |].
    rewrite last_cons.
    repeat split; assumption.
Qed.

Lemma edits_last_wins_witness :
  loading (comp octocat_loaded) = false
  /\ exists w',
      steps [Change "o"; Change "oc"; Change ""; Change "torvalds"]
        octocat_loaded = Some w'
      /\ userName (comp w') = "torvalds"
      /\ user (comp w') = octocat.
Proof.
  split; [reflexivity |].
  destruct (edits_last_wins ["o"; "oc"; ""; "torvalds"] octocat_loaded eq_refl)
    as [w' [Hs [H1 [H2 _]]]].
  exists w'. split; [exact Hs | split; [exact H1 | exact H2]].
Defined.

(** X9: every accepted submission calls [preventDefault], so the browser
    never navigates away; an edit never does. *)
Theorem submit_prevents_default (w w' : world) :
  (step Submit w = Some w' -> defaultPrevented w' = true)
  /\ (forall s, step (Change s) w = Some w' -> defaultPrevented w' = false).
Proof.
  split.
  - intros Hs. destruct (loading (comp w)) eqn:Hl.
    + rewrite (step_submit_loading w Hl) in Hs. discriminate.
    + rewrite (step_submit w Hl) in Hs. injection Hs as <-. reflexivity.
  - intros s Hs. destruct (loading (comp w)) eqn:Hl.
    + rewrite (step_change_loading s w Hl) in Hs. discriminate.
    + rewrite (step_change s w Hl) in Hs. injection Hs as <-. reflexivity.
Qed.

Lemma submit_prevents_default_witness :
  step Submit mount = Some (run (handleSubmit "") (dispatching mount))
  /\ defaultPrevented (run (handleSubmit "") (dispatching mount)) = true.
Proof.
  split; [reflexivity |].
  exact (proj1 (submit_prevents_default mount _) eq_refl).
Defined.

(** ** More on what is rendered *)

(** X10: the result panel is shown exactly when the loading flag is down
    and the result is truthy.  A falsy result that is not [null] (the
    number zero, the empty string, [false]) shows no panel either: the
    value itself is handed to React as the child after the form. *)
Theorem App_panel_iff_truthy (st : component) :
  (elements "img" (App st) <> [] <->
   loading st = false /\ truthy (user st) = true)
  /\ (loading st = false -> truthy (user st) = false ->
      exists form, App st = Elem "div" [] [form; Val (user st)]).
Proof.
  split; [exact (App_panel_shown st) |].
  intros Hl Ht. unfold App, and_then. rewrite Hl, Ht.
  eexists. reflexivity.
Qed.

Lemma App_panel_iff_truthy_witness :
  exists form,
    App {| userName := "x"; user := JNum (S754_zero false); loading := false |}
    = Elem "div" [] [form; Val (JNum (S754_zero false))].
Proof.
  exact (proj2 (App_panel_iff_truthy
                  {| userName := "x"; user := JNum (S754_zero false);
                     loading := false |}) eq_refl eq_refl).
Defined.

Lemma lookup_field_missing (key : string) (fields : list (string * jsval)) :
  ~ In key (map fst fields) -> lookup_field key fields = JUndefined.
Proof.
  induction fields as [|[k v] rest IH]; simpl; intros H; [reflexivity |].
  destruct (String.eqb_spec k key) as [->|_].
  - exfalso. apply H. left. reflexivity.
  - apply IH. intros Hin. apply H. right. exact Hin.
Qed.

(** X11: a result object without the fields [name], [bio] and
    [avatar_url] (the error object of a 404, say) still brings up the
    panel, with [undefined] in the heading, the paragraph and the image
    address. *)
Theorem App_panel_of_foreign_object
  (st : component) (fields : list (string * jsval)) :
  loading st = false -> user st = JObj fields ->
  ~ In "name" (map fst fields) -> ~ In "bio" (map fst fields) ->
  ~ In "avatar_url" (map fst fields) ->
  elements "img" (App st) = [[("src", PExpr JUndefined); ("alt", PLit "")]]
  /\ values (App st)
     = [JStr (userName st); JUndefined; JUndefined; JUndefined].
Proof.
  intros Hl Hu Hn Hb Ha. unfold App, and_then. rewrite Hl, Hu. simpl.
  rewrite (lookup_field_missing "name" fields Hn),
          (lookup_field_missing "bio" fields Hb),
          (lookup_field_missing "avatar_url" fields Ha).
  split; reflexivity.
Qed.

Lemma App_panel_of_foreign_object_witness :
  values (App {| userName := "nobody"; user := not_found_body;
                 loading := false |})
  = [JStr "nobody"; JUndefined; JUndefined; JUndefined].
Proof.
  refine (proj2 (App_panel_of_foreign_object
                   {| userName := "nobody"; user := not_found_body;
                      loading := false |}
                   [("message", JStr "Not Found");
                    ("documentation_url",
                     JStr "https://docs.github.com/rest")]
                   eq_refl eq_refl _ _ _));
    simpl; intros [H|[H|[]]]; discriminate H.
Defined.

(** X12: the [User] card is static and loses nothing: no element of it
    carries an event handler, and two cards are the same tree only when
    their name, age and e-mail are the same. *)
Theorem User_card (p : UserProps) :
  (forall tag attr h, listens tag attr h (User p) = false)
  /\ (forall q, User p = User q -> p = q).
Proof.
  split.
  - intros tag attr h. unfold listens, User. cbn -[String.eqb].
    destruct ("div" =? tag), ("h1" =? tag), ("p" =? tag); reflexivity.
  - intros q H. destruct p as [n a e], q as [n' a' e'].
    unfold User in H. simpl in H. injection H as -> -> ->. reflexivity.
Qed.

Lemma User_card_witness :
  listens "h1" "onClick" HandleSubmit
    (User (mkUserProps "Ann" (S754_zero false) "ann@example.org")) = false.
Proof.
  exact (proj1 (User_card (mkUserProps "Ann" (S754_zero false)
                             "ann@example.org")) "h1" "onClick" HandleSubmit).
Defined.

(** ** The guide's form: no loading flag, no [catch] *)


Lemma tutorial_listens_submit (st : Tutorial.component) :
  listens "form" "onSubmit" HandleSubmit (Tutorial.GitHubUserSearch st)
  = true.
Proof.
  unfold Tutorial.GitHubUserSearch, and_then.
  destruct (truthy (Tutorial.user st)); reflexivity.
Qed.


Lemma tutorial_step_submit (w : Tutorial.world) :
  Tutorial.step Submit w
  = Some (Tutorial.run
            (Tutorial.handleSubmit (Tutorial.username (Tutorial.comp w)))
            (Tutorial.dispatching w)).
Proof.
  unfold Tutorial.step. rewrite tutorial_listens_submit. reflexivity.
Qed.

(** The handler parked last is the one at index [length ts]. *)
Lemma nth_error_snoc {A : Type} (ts : list A) (t : A) :
  nth_error (ts ++ [t]) (length ts) = Some t.
Proof. induction ts as [|x ts IH]; simpl; [reflexivity | exact IH]. Qed.

Lemma remove_nth_snoc {A : Type} (ts : list A) (t : A) :
  remove_nth (length ts) (ts ++ [t]) = ts.
Proof.
  induction ts as [|x ts IH]; simpl; [reflexivity | rewrite IH; reflexivity].
Qed.

(** X13: the guide's [handleSubmit] has no [catch].  When its request
    fails, or the body does not parse, the rejection is left unhandled:
    nothing is printed and the component is exactly as it was. *)
Theorem tutorial_failure_unhandled
  (w : Tutorial.world) (r : response) (e : exn) :
  exists w1,
    Tutorial.step Submit w = Some w1
    /\ (exists w2,
          Tutorial.step (Settle (length (Tutorial.tasks w))
                           (FetchSettled (Rejected e))) w1 = Some w2
          /\ Tutorial.unhandled w2 = (Tutorial.unhandled w ++ [e])%list
          /\ Tutorial.console w2 = Tutorial.console w
          /\ Tutorial.comp w2 = Tutorial.comp w
          /\ Tutorial.tasks w2 = Tutorial.tasks w)
    /\ (exists w2 w3,
          Tutorial.step (Settle (length (Tutorial.tasks w))
                           (FetchSettled (Fulfilled r))) w1 = Some w2
          /\ Tutorial.step (Settle (length (Tutorial.tasks w))
                              (JsonSettled (Rejected e))) w2 = Some w3
          /\ Tutorial.unhandled w3 = (Tutorial.unhandled w ++ [e])%list
          /\ Tutorial.console w3 = Tutorial.console w
          /\ Tutorial.comp w3 = Tutorial.comp w
          /\ Tutorial.tasks w3 = Tutorial.tasks w).
Proof.
  eexists. split; [exact (tutorial_step_submit w) |]. split.
  - eexists. split.
    + unfold Tutorial.step. cbn [Tutorial.tasks Tutorial.run Tutorial.exec
        Tutorial.handleSubmit Tutorial.with_tasks Tutorial.dispatching].
      simpl. rewrite nth_error_snoc. simpl. reflexivity.
    + simpl. rewrite remove_nth_snoc. repeat split.
  - eexists. eexists. split; [|split].
    + unfold Tutorial.step. simpl. rewrite nth_error_snoc. simpl.
      reflexivity.
    + unfold Tutorial.step. simpl. rewrite remove_nth_snoc.
      rewrite nth_error_snoc. simpl. reflexivity.
    + simpl. rewrite !remove_nth_snoc. repeat split.
Qed.



(** The guide's [handleSubmit] leaves the component as it is until a
    promise settles. *)
Lemma tutorial_submit_comp (u : string) (w : Tutorial.world) :
  Tutorial.comp (Tutorial.run (Tutorial.handleSubmit u)
                   (Tutorial.dispatching w))
  = Tutorial.comp w.
Proof. reflexivity. Qed.

(** X15: the guide's form has no loading flag to hide it.  As long as it
    is mounted and React can show its state, it can be submitted any number
    of times in a row, also while requests are in flight: [n] submissions
    make [n] calls of [fetch] and park [n] handlers, and the component
    stays as it is. *)
Theorem tutorial_submits_pile_up (n : nat) (p : Tutorial.page) :
  Tutorial.mounted p = true ->
  can_render (Tutorial.GitHubUserSearch (Tutorial.comp (Tutorial.world_of p)))
  = true ->
  exists p',
    Tutorial.react_steps (repeat Submit n) p = Some p'
    /\ Tutorial.mounted p' = true
    /\ length (Tutorial.tasks (Tutorial.world_of p'))
       = length (Tutorial.tasks (Tutorial.world_of p)) + n
    /\ length (Tutorial.network (Tutorial.world_of p'))
       = length (Tutorial.network (Tutorial.world_of p)) + n
    /\ Tutorial.comp (Tutorial.world_of p')
       = Tutorial.comp (Tutorial.world_of p).
Proof.
  revert p. induction n as [|n IH]; intros p M Hc.
  - exists p. simpl. repeat split; try lia. exact M.
  - pose (p1 := {| Tutorial.world_of :=
                     Tutorial.run
                       (Tutorial.handleSubmit
                          (Tutorial.username
                             (Tutorial.comp (Tutorial.world_of p))))
                       (Tutorial.dispatching (Tutorial.world_of p));
                   Tutorial.mounted := true |}).
    assert (Hs : Tutorial.react_step Submit p = Some p1).
    { unfold Tutorial.react_step. rewrite M, tutorial_step_submit.
      rewrite tutorial_submit_comp, Hc. reflexivity. }
    destruct (IH p1 eq_refl Hc) as [p' [Hr [M' [Ht [Hn Hk]]]]].
    exists p'. cbn [repeat Tutorial.react_steps]. rewrite Hs.
    split; [exact Hr |]. split; [exact M' |].
    simpl in Ht, Hn, Hk. rewrite length_app in Ht, Hn. simpl in Ht, Hn.
    repeat split; [lia | lia | exact Hk].
Qed.

Lemma tutorial_submits_pile_up_witness :
  exists p',
    Tutorial.react_steps [Submit; Submit; Submit]
      {| Tutorial.world_of := Tutorial.mount; Tutorial.mounted := true |}
    = Some p'
    /\ Tutorial.mounted p' = true
    /\ length (Tutorial.tasks (Tutorial.world_of p')) = 3
    /\ length (Tutorial.network (Tutorial.world_of p')) = 3.
Proof.
  destruct (tutorial_submits_pile_up 3
              {| Tutorial.world_of := Tutorial.mount;
                 Tutorial.mounted := true |} eq_refl eq_refl)
    as [p' [Hr [M [Ht [Hn _]]]]].
  exists p'. repeat split; assumption.
Defined.

Lemma tutorial_panel_witness :
  elements "a"
    (Tutorial.GitHubUserSearch
       {| Tutorial.username := "octocat"; Tutorial.user := octocat |})
  = [[ ("href", PExpr (JStr "h")); ("target", PLit "_blank");
       ("rel", PLit "noopener noreferrer") ]].
Proof.
  exact (proj1 (tutorial_panel
                  {| Tutorial.username := "octocat";
                     Tutorial.user := octocat |} eq_refl)).
Defined.

(** ** Every way a submission can end *)






